(** * volumetric_map_base: the [WorldBase] interface

    A shallow embedding of
    [volumetric_map_base/include/volumetric_map_base/world_base.h].

    - [double] values are IEEE-754 binary64 numbers ([spec_float] with
      precision 53 and maximal exponent 1024), so infinities, NaN and the
      largest finite value are ordinary data.
    - A [WorldBase] object is a record with the single data member
      [weighing_function_]; a [std::shared_ptr] is an [option].
    - Non-const member functions are state transformers in the monad [M],
      which threads the object, collects the lines written with [LOG] and
      the virtual insertion hooks that were called, and can stop with an
      error.  Const member functions are plain functions of the object.
    - The virtual member functions form the class [Backend]; the bodies given
      in the header are its instance [WorldBase_Backend].
    - The member functions that the header only declares are modelled from
      the specification; each such definition says so. *)

From Stdlib Require Import ZArith String List Bool Lia.
From Stdlib Require Import Floats.SpecFloat.
Import ListNotations.

Local Open Scope Z_scope.

(** ** IEEE-754 binary64 *)

Definition double : Type := spec_float.

Module Double.

Definition prec : Z := 53.
Definition emax : Z := 1024.

Definition valid (x : double) : bool := valid_binary prec emax x.

Definition is_finite (x : double) : bool :=
  match x with
  | S754_zero _ | S754_finite _ _ _ => true
  | S754_infinity _ | S754_nan => false
  end.

Definition is_nan (x : double) : bool :=
  match x with
  | S754_nan => true
  | _ => false
  end.

Definition zero : double := S754_zero false.
Definition nan : double := S754_nan.

(** [std::numeric_limits<double>::max()] *)
Definition max : double := SFmax_float prec emax.

(** [m * 2^e], rounded to nearest *)
Definition scaled (m e : Z) : double := binary_normalize prec emax m e false.

Definition of_Z (n : Z) : double := scaled n 0.
Definition one : double := of_Z 1.

Definition add : double -> double -> double := SFadd prec emax.
Definition sub : double -> double -> double := SFsub prec emax.
Definition mul : double -> double -> double := SFmul prec emax.
Definition div : double -> double -> double := SFdiv prec emax.
Definition sqrt : double -> double := SFsqrt prec emax.
Definition opp : double -> double := SFopp.
Definition abs : double -> double := SFabs.
Definition ltb : double -> double -> bool := SFltb.
Definition leb : double -> double -> bool := SFleb.

End Double.

(** ** Eigen and kindr value types *)

Record Vector2d : Type := mkVector2d { v2x : double; v2y : double }.

Record Vector3d : Type := mkVector3d { vx : double; vy : double; vz : double }.

(** [Eigen::Vector3d::Zero()] *)
Definition Vector3d_Zero : Vector3d :=
  mkVector3d Double.zero Double.zero Double.zero.

Definition Vector3d_is_finite (v : Vector3d) : bool :=
  Double.is_finite (vx v) && Double.is_finite (vy v) && Double.is_finite (vz v).

Record Matrix3d : Type := mkMatrix3d {
  m00 : double; m01 : double; m02 : double;
  m10 : double; m11 : double; m12 : double;
  m20 : double; m21 : double; m22 : double }.

Record Matrix4d : Type := mkMatrix4d {
  q00 : double; q01 : double; q02 : double; q03 : double;
  q10 : double; q11 : double; q12 : double; q13 : double;
  q20 : double; q21 : double; q22 : double; q23 : double;
  q30 : double; q31 : double; q32 : double; q33 : double }.

Record Quaternion : Type := mkQuaternion {
  qw : double; qx : double; qy : double; qz : double }.

(** [kindr::minimal::QuatTransformation]: a rotation and a translation. *)
Record Transformation : Type := mkTransformation {
  rotation : Quaternion;
  translation : Vector3d }.

(** ** Sensor data containers *)

(** A [cv::Mat] with one scalar per pixel, read with [at(row, col)]. *)
Record Mat : Type := mkMat {
  rows : nat;
  cols : nat;
  at_ : nat -> nat -> double }.

(** A [cv::Mat] of type [CV_32FC3]: one 3D point per pixel. *)
Record Mat3 : Type := mkMat3 {
  rows3 : nat;
  cols3 : nat;
  at3 : nat -> nat -> Vector3d }.

(** [pcl::PointCloud<pcl::PointXYZ>] *)
Definition PointCloud : Type := list Vector3d.

(** ** The weighing function

    Modelled from the spec: [volumetric_map_base/weighing_function.h] is not
    part of the sources at hand.  The spec's data model describes a
    WeighingFunction as "anything that can map a raw measurement (disparity
    scalar, or 3D point) to a non-negative scalar weight". *)
Record WeighingFunction : Type := mkWeighingFunction {
  computeWeightForDisparity : double -> double;
  computeWeightForPoint : Vector3d -> double }.

(** ** The class [WorldBase] *)

Inductive CellStatus : Type :=
  | kFree
  | kOccupied
  | kUnknown.

(** The enumerators' values, [kFree = 0], [kOccupied = 1], [kUnknown = 2]. *)
Definition CellStatus_value (c : CellStatus) : Z :=
  match c with
  | kFree => 0
  | kOccupied => 1
  | kUnknown => 2
  end.

Record WorldBase : Type := mkWorldBase {
  weighing_function_ : option WeighingFunction }.

(** [WorldBase() {}]: the shared pointer is default-initialised to null. *)
Definition WorldBase_new : WorldBase := mkWorldBase None.

(** ** Effects: logging, hook calls, errors *)

Inductive Severity : Type := INFO | WARNING | ERROR | FATAL.

Record LogLine : Type := mkLogLine { severity : Severity; message : string }.

(** The four virtual insertion hooks. *)
Inductive Hook : Type :=
  | ProjectedDisparityImpl
  | ProjectedDisparityWithWeightsImpl
  | PointcloudImpl
  | PointcloudWithWeightsImpl.

(** A call of a hook together with the arguments it receives. *)
Inductive HookCall : Type :=
  | CallProjectedDisparity
      (sensor_to_world : Transformation) (projected_points : Mat3)
  | CallProjectedDisparityWithWeights
      (sensor_to_world : Transformation) (projected_points : Mat3)
      (weights : Mat)
  | CallPointcloud
      (sensor_to_world : Transformation) (pointcloud : PointCloud)
  | CallPointcloudWithWeights
      (sensor_to_world : Transformation) (pointcloud : PointCloud)
      (weights : list double).

Definition hook_of (c : HookCall) : Hook :=
  match c with
  | CallProjectedDisparity _ _ => ProjectedDisparityImpl
  | CallProjectedDisparityWithWeights _ _ _ => ProjectedDisparityWithWeightsImpl
  | CallPointcloud _ _ => PointcloudImpl
  | CallPointcloudWithWeights _ _ _ => PointcloudWithWeightsImpl
  end.

Inductive Event : Type :=
  | Logged (l : LogLine)
  | Called (c : HookCall).

Inductive Error : Type :=
  | EmptyInput
  | DimensionMismatch
  | DegenerateBaseline.

Inductive Result (A : Type) : Type :=
  | Ok (a : A)
  | Err (e : Error).
Arguments Ok {A} a.
Arguments Err {A} e.

Definition is_Ok {A : Type} (r : Result A) : bool :=
  match r with
  | Ok _ => true
  | Err _ => false
  end.

(** What running a member function on an object [S] yields: the value it
    returns (or the error it stops with), the object afterwards, and the
    events in the order they happened. *)
Record Outcome (S A : Type) : Type := mkOutcome {
  result : Result A;
  final : S;
  events : list Event }.
Arguments mkOutcome {S A} result final events.
Arguments result {S A} o.
Arguments final {S A} o.
Arguments events {S A} o.

Definition M (S A : Type) : Type := S -> Outcome S A.

Definition ret {S A : Type} (a : A) : M S A :=
  fun s => mkOutcome (Ok a) s [].

Definition bind {S A B : Type} (m : M S A) (k : A -> M S B) : M S B :=
  fun s =>
    let o := m s in
    match result o with
    | Ok a =>
        let o' := k a (final o) in
        mkOutcome (result o') (final o') (events o ++ events o')
    | Err e => mkOutcome (Err e) (final o) (events o)
    end.

Definition fail {S A : Type} (e : Error) : M S A :=
  fun s => mkOutcome (Err e) s [].

Definition get {S : Type} : M S S :=
  fun s => mkOutcome (Ok s) s [].

Definition put {S : Type} (s' : S) : M S unit :=
  fun _ => mkOutcome (Ok tt) s' [].

Definition emit {S : Type} (e : Event) : M S unit :=
  fun s => mkOutcome (Ok tt) s [e].

(** [LOG(severity) << message] *)
Definition LOG {S : Type} (sev : Severity) (msg : string) : M S unit :=
  emit (Logged (mkLogLine sev msg)).

Declare Scope world_scope.
Delimit Scope world_scope with world.
Notation "x <- m ;; k" := (bind m (fun x => k))
  (at level 61, m at next level, right associativity) : world_scope.
Notation "m ;;; k" := (bind m (fun _ => k))
  (at level 61, right associativity) : world_scope.
Local Open Scope world_scope.

Definition calls_made (es : list Event) : list HookCall :=
  flat_map (fun e => match e with Called c => [c] | Logged _ => [] end) es.

Definition hooks_called (es : list Event) : list Hook :=
  map hook_of (calls_made es).

Definition lines_logged (es : list Event) : list LogLine :=
  flat_map (fun e => match e with Logged l => [l] | Called _ => [] end) es.

(** ** Member functions defined in the header *)

(** [virtual void setFree(position, bounding_box_size) {}] *)
Definition setFree (position bounding_box_size : Vector3d)
  : M WorldBase unit :=
  ret tt.

(** [virtual void setOccupied(position, bounding_box_size) {}] *)
Definition setOccupied (position bounding_box_size : Vector3d)
  : M WorldBase unit :=
  ret tt.

Definition getCellStatusBoundingBox
  (this : WorldBase) (point bounding_box_size : Vector3d) : CellStatus :=
  kFree.

Definition getCellStatusPoint (this : WorldBase) (point : Vector3d)
  : CellStatus :=
  kFree.

Definition getLineStatus (this : WorldBase) (start end_ : Vector3d)
  : CellStatus :=
  kFree.

Definition getLineStatusBoundingBox
  (this : WorldBase) (start end_ bounding_box : Vector3d) : CellStatus :=
  kFree.

Definition getMapCenter (this : WorldBase) : Vector3d :=
  Vector3d_Zero.

Definition getMapSize (this : WorldBase) : Vector3d :=
  mkVector3d Double.max Double.max Double.max.

Definition setWeighingFunction (weighing_function : option WeighingFunction)
  : M WorldBase unit :=
  put (mkWorldBase weighing_function).

Definition isWeighingFunctionSet (this : WorldBase) : bool :=
  match weighing_function_ this with
  | Some _ => true
  | None => false
  end.

Definition insertProjectedDisparityIntoMapImpl
  (sensor_to_world : Transformation) (projected_points : Mat3)
  : M WorldBase unit :=
  LOG ERROR "Calling unimplemented disparity insertion!".

Definition insertProjectedDisparityIntoMapWithWeightsImpl
  (sensor_to_world : Transformation) (projected_points : Mat3) (weights : Mat)
  : M WorldBase unit :=
  LOG ERROR "Calling unimplemented disparity insertion!".

Definition insertPointcloudIntoMapImpl
  (sensor_to_world : Transformation) (pointcloud : PointCloud)
  : M WorldBase unit :=
  LOG ERROR "Calling unimplemented pointcloud insertion!".

Definition insertPointcloudIntoMapWithWeightsImpl
  (sensor_to_world : Transformation) (pointcloud : PointCloud)
  (weights : list double)
  : M WorldBase unit :=
  LOG ERROR "Calling unimplemented disparity insertion!".

(** ** Virtual dispatch

    A class derived from [WorldBase] has a state [S] that contains the
    [WorldBase] subobject and may override every virtual member function. *)
Class Backend (S : Type) : Type := mkBackend {
  base : S -> WorldBase;
  v_setFree : Vector3d -> Vector3d -> M S unit;
  v_setOccupied : Vector3d -> Vector3d -> M S unit;
  v_getCellStatusBoundingBox : S -> Vector3d -> Vector3d -> CellStatus;
  v_getCellStatusPoint : S -> Vector3d -> CellStatus;
  v_getLineStatus : S -> Vector3d -> Vector3d -> CellStatus;
  v_getLineStatusBoundingBox :
    S -> Vector3d -> Vector3d -> Vector3d -> CellStatus;
  v_getMapCenter : S -> Vector3d;
  v_getMapSize : S -> Vector3d;
  v_insertProjectedDisparityIntoMapImpl : Transformation -> Mat3 -> M S unit;
  v_insertProjectedDisparityIntoMapWithWeightsImpl :
    Transformation -> Mat3 -> Mat -> M S unit;
  v_insertPointcloudIntoMapImpl : Transformation -> PointCloud -> M S unit;
  v_insertPointcloudIntoMapWithWeightsImpl :
    Transformation -> PointCloud -> list double -> M S unit }.

(** The default backend: [WorldBase] itself, no member overridden. *)
#[export] Instance WorldBase_Backend : Backend WorldBase := {|
  base := fun this => this;
  v_setFree := setFree;
  v_setOccupied := setOccupied;
  v_getCellStatusBoundingBox := getCellStatusBoundingBox;
  v_getCellStatusPoint := getCellStatusPoint;
  v_getLineStatus := getLineStatus;
  v_getLineStatusBoundingBox := getLineStatusBoundingBox;
  v_getMapCenter := getMapCenter;
  v_getMapSize := getMapSize;
  v_insertProjectedDisparityIntoMapImpl := insertProjectedDisparityIntoMapImpl;
  v_insertProjectedDisparityIntoMapWithWeightsImpl :=
    insertProjectedDisparityIntoMapWithWeightsImpl;
  v_insertPointcloudIntoMapImpl := insertPointcloudIntoMapImpl;
  v_insertPointcloudIntoMapWithWeightsImpl :=
    insertPointcloudIntoMapWithWeightsImpl |}.

(** The body a virtual hook call resolves to. *)
Definition hook_body {S : Type} `{Backend S} (c : HookCall) : M S unit :=
  match c with
  | CallProjectedDisparity T pts =>
      v_insertProjectedDisparityIntoMapImpl T pts
  | CallProjectedDisparityWithWeights T pts w =>
      v_insertProjectedDisparityIntoMapWithWeightsImpl T pts w
  | CallPointcloud T cloud =>
      v_insertPointcloudIntoMapImpl T cloud
  | CallPointcloudWithWeights T cloud w =>
      v_insertPointcloudIntoMapWithWeightsImpl T cloud w
  end.

(** A virtual call of a hook: the call is recorded, then the body runs. *)
Definition invoke {S : Type} `{Backend S} (c : HookCall) : M S unit :=
  emit (Called c) ;;; hook_body c.

(** ** The member functions defined in [world_base.cc]

    The header declares [insertDisparityImage], [insertPointcloud],
    [getQForCameras], [generateQ] and [computeWeights]; their bodies are in
    [world_base.cc], which is not among the sources at hand.  The definitions
    of this part follow the specification, sections 4.1 to 4.4 and 7. *)

(** Modelled from the spec: the thresholds and checks of [world_base.cc] that
    the spec names but does not fix: the epsilon of the "W ≈ 0" guard, the
    bound under which a baseline is "near zero", the "sentinel value" of a
    disparity, the test for "consistent dimensions" of a disparity image
    against the full image size, and the rescaling of Q "by the resolution
    ratio". *)
Record Settings : Type := mkSettings {
  w_epsilon : double;
  baseline_epsilon : double;
  is_sentinel : double -> bool;
  consistent_dimensions : Mat -> Vector2d -> bool;
  rescaleQ : Matrix4d -> Mat -> Vector2d -> Matrix4d }.

(** [x] is bounded away from zero: [eps < |x|].  False when [x] is NaN. *)
Definition bounded_away (eps x : double) : bool :=
  Double.ltb eps (Double.abs x).

(** *** Geometry and calibration (spec 4.1) *)

(** The magnitude of a translation. *)
Definition norm (v : Vector3d) : double :=
  Double.sqrt
    (Double.add
       (Double.add (Double.mul (vx v) (vx v)) (Double.mul (vy v) (vy v)))
       (Double.mul (vz v) (vz v))).

(** The reprojection matrix of the standard disparity-to-depth relation with
    distinct focal lengths [fx], [fy] and principal points [left_cx],
    [right_cx]: a pixel [(x, y)] with disparity [d] is mapped to
    [(fy (x - cx), fx (y - cy), fx fy, fy (d - (left_cx - right_cx)) / Tx)],
    so that [Z = Tx fx / d] when the principal points agree. *)
Definition depth_matrix
  (Tx left_cx left_cy left_fx left_fy right_cx : double) : Matrix4d :=
  let O := Double.zero in
  {| q00 := left_fy; q01 := O; q02 := O;
     q03 := Double.opp (Double.mul left_fy left_cx);
     q10 := O; q11 := left_fx; q12 := O;
     q13 := Double.opp (Double.mul left_fx left_cy);
     q20 := O; q21 := O; q22 := O;
     q23 := Double.mul left_fx left_fy;
     q30 := O; q31 := O;
     q32 := Double.div left_fy Tx;
     q33 := Double.div
              (Double.opp (Double.mul left_fy (Double.sub left_cx right_cx)))
              Tx |}.

(** Modelled from the spec: the body of [WorldBase::generateQ] is in
    [world_base.cc].  Spec 4.1: Q satisfies "the standard disparity-to-depth
    relation Z = (baseline·fx)/disparity", and a "degenerate baseline (zero
    or near-zero translation magnitude) ... must be surfaced as a
    precondition violation". *)
Definition generateQ (cfg : Settings)
  (Tx left_cx left_cy left_fx left_fy right_cx right_cy right_fx right_fy
     : double)
  : Result Matrix4d :=
  if bounded_away (baseline_epsilon cfg) Tx
  then Ok (depth_matrix Tx left_cx left_cy left_fx left_fy right_cx)
  else Err DegenerateBaseline.

(** Modelled from the spec: the body of [WorldBase::getQForCameras] is in
    [world_base.cc].  Spec 4.1: "given two camera intrinsic matrices, the
    rigid transform between the two camera frames, and the full (uncropped)
    image size, produce a 4×4 reprojection matrix Q"; the baseline is the
    "translation magnitude" of the transform. *)
Definition getQForCameras (cfg : Settings)
  (T_C1_C0 : Transformation) (left_cam_matrix right_cam_matrix : Matrix3d)
  (full_image_size : Vector2d)
  : Result Matrix4d :=
  generateQ cfg (norm (translation T_C1_C0))
    (m02 left_cam_matrix) (m12 left_cam_matrix)
    (m00 left_cam_matrix) (m11 left_cam_matrix)
    (m02 right_cam_matrix) (m12 right_cam_matrix)
    (m00 right_cam_matrix) (m11 right_cam_matrix).

(** *** Disparity ingestion (spec 4.2) *)

(** The explicit invalid marker of a point field: NaN in every coordinate. *)
Definition invalid_point : Vector3d :=
  mkVector3d Double.nan Double.nan Double.nan.

(** What happens to one pixel: it has no valid disparity, or its homogeneous
    [W] is not bounded away from zero, or the perspective divide by [W] is
    performed and yields a point. *)
Inductive Reprojection : Type :=
  | NoDisparity
  | NoDepth (W : double)
  | Divided (W : double) (p : Vector3d).

Definition dot4 (a b c d x y z : double) : double :=
  Double.add
    (Double.add (Double.add (Double.mul a x) (Double.mul b y))
       (Double.mul c z))
    d.

(** [Q (x, y, d, 1)^T] *)
Definition homogeneous (Q : Matrix4d) (x y d : double)
  : double * double * double * double :=
  (dot4 (q00 Q) (q01 Q) (q02 Q) (q03 Q) x y d,
   dot4 (q10 Q) (q11 Q) (q12 Q) (q13 Q) x y d,
   dot4 (q20 Q) (q21 Q) (q22 Q) (q23 Q) x y d,
   dot4 (q30 Q) (q31 Q) (q32 Q) (q33 Q) x y d).

Definition homogeneous_W (Q : Matrix4d) (x y d : double) : double :=
  snd (homogeneous Q x y d).

Definition valid_disparity (cfg : Settings) (d : double) : bool :=
  negb (Double.leb d Double.zero || is_sentinel cfg d).

(** Modelled from the spec: the per-pixel step of disparity ingestion, part
    of [WorldBase::insertDisparityImage] in [world_base.cc].  Spec 4.2: "each
    entry either a valid metric 3D point (sensor frame) or an explicit
    invalid marker when the source pixel has no valid disparity (commonly
    disparity ≤ 0 or a sentinel value).  Algorithm: homogeneous-transform
    each pixel by Q, then perspective-divide by the homogeneous W component;
    guard against W ≈ 0 ... such pixels are marked invalid rather than
    clamped." *)
Definition reprojectPixel (cfg : Settings) (Q : Matrix4d)
  (col row : nat) (d : double) : Reprojection :=
  if valid_disparity cfg d then
    let '(X, Y, Z, W) :=
      homogeneous Q (Double.of_Z (Z.of_nat col)) (Double.of_Z (Z.of_nat row)) d
    in
    if bounded_away (w_epsilon cfg) W
    then Divided W (mkVector3d (Double.div X W) (Double.div Y W)
                               (Double.div Z W))
    else NoDepth W
  else NoDisparity.

Definition reprojection_point (r : Reprojection) : Vector3d :=
  match r with
  | Divided _ p => p
  | NoDisparity | NoDepth _ => invalid_point
  end.

(** Modelled from the spec: disparity ingestion, part of
    [WorldBase::insertDisparityImage] in [world_base.cc].  Spec 4.2: "Output
    is a 3D point field of the same pixel dimensions as the disparity
    image". *)
Definition reprojectImageTo3D (cfg : Settings) (Q : Matrix4d)
  (disparity : Mat) : Mat3 :=
  {| rows3 := rows disparity;
     cols3 := cols disparity;
     at3 := fun r c => reprojection_point
                         (reprojectPixel cfg Q c r (at_ disparity r c)) |}.

(** Modelled from the spec: the body of [WorldBase::computeWeights] for a
    disparity image is in [world_base.cc].  Spec 4.2: it "computes a
    WeightField from the raw disparity magnitude via the attached
    WeighingFunction". *)
Definition computeWeights_disparity (wf : WeighingFunction) (disparity : Mat)
  : Mat :=
  {| rows := rows disparity;
     cols := cols disparity;
     at_ := fun r c => computeWeightForDisparity wf (at_ disparity r c) |}.

(** *** Point-cloud ingestion (spec 4.3) *)

(** One record of a [sensor_msgs::PointCloud2] message: the geometric fields
    and whatever other tagged fields the sensor adds. *)
Record PointRecord : Type := mkPointRecord {
  field_x : double;
  field_y : double;
  field_z : double;
  other_fields : list (string * double) }.

Definition PointCloud2 : Type := list PointRecord.

(** Stripping the non-geometric fields. *)
Definition xyz (r : PointRecord) : Vector3d :=
  mkVector3d (field_x r) (field_y r) (field_z r).

(** Modelled from the spec: point-cloud ingestion, part of
    [WorldBase::insertPointcloud] in [world_base.cc].  Spec 4.3: "Output is
    the canonical point field in sensor frame, after stripping non-geometric
    fields. ... Points with non-finite coordinates are excluded". *)
Definition ingestPointcloud (cloud_msg : PointCloud2) : PointCloud :=
  filter Vector3d_is_finite (map xyz cloud_msg).

(** The points of a message that ingestion excludes. *)
Definition excludedPoints (cloud_msg : PointCloud2) : list Vector3d :=
  filter (fun p => negb (Vector3d_is_finite p)) (map xyz cloud_msg).

(** Modelled from the spec: the body of [WorldBase::computeWeights] for a
    point cloud is in [world_base.cc].  Spec 4.3: "a parallel
    WeightField is produced from a per-point signal". *)
Definition computeWeights_cloud (wf : WeighingFunction) (cloud : PointCloud)
  : list double :=
  map (computeWeightForPoint wf) cloud.

(** *** The insertion dispatcher (spec 4.4) *)

(** [cv::Mat::empty()] *)
Definition Mat_empty (m : Mat) : bool :=
  (rows m =? 0)%nat || (cols m =? 0)%nat.

(** [stereo_msgs::DisparityImage]: the image it carries. *)
Record DisparityImage : Type := mkDisparityImage { image : Mat }.

Section Dispatcher.

Context {S : Type} `{Backend S}.
Variable cfg : Settings.

(** Modelled from the spec: the body of [WorldBase::insertDisparityImage]
    (the [cv::Mat] overload) is in [world_base.cc].  Spec 4.4: it "validates
    inputs (non-empty image, consistent dimensions), invokes Disparity
    Ingestion, then forwards the resulting point field ... to the weighted or
    unweighted backend hook depending on whether a WeighingFunction is set";
    spec 4.1: the ingestion stage rescales Q "by the resolution ratio before
    use"; spec 4.4: "any ingestion validation failure aborts the call". *)
Definition insertDisparityImage
  (sensor_to_world : Transformation) (disparity : Mat)
  (Q_full : Matrix4d) (full_image_size : Vector2d) : M S unit :=
  if Mat_empty disparity then fail EmptyInput
  else if negb (consistent_dimensions cfg disparity full_image_size)
  then fail DimensionMismatch
  else
    let Q := rescaleQ cfg Q_full disparity full_image_size in
    let projected_points := reprojectImageTo3D cfg Q disparity in
    this <- get ;;
    match weighing_function_ (base this) with
    | None =>
        invoke (CallProjectedDisparity sensor_to_world projected_points)
    | Some wf =>
        invoke (CallProjectedDisparityWithWeights sensor_to_world
                  projected_points (computeWeights_disparity wf disparity))
    end.

(** Modelled from the spec: the [stereo_msgs::DisparityImageConstPtr]
    overload of [WorldBase::insertDisparityImage], in [world_base.cc]; it
    hands the message's image to the [cv::Mat] overload. *)
Definition insertDisparityImage_msg
  (sensor_to_world : Transformation) (disparity : DisparityImage)
  (Q_full : Matrix4d) (full_image_size : Vector2d) : M S unit :=
  insertDisparityImage sensor_to_world (image disparity) Q_full
    full_image_size.

(** Modelled from the spec: the body of [WorldBase::insertPointcloud] is in
    [world_base.cc].  Spec 4.4: "same pattern via Point-Cloud Ingestion";
    spec 7: "malformed or empty input images/clouds ... signaled before any
    backend call is made". *)
Definition insertPointcloud
  (sensor_to_world : Transformation) (cloud_msg : PointCloud2) : M S unit :=
  match cloud_msg with
  | [] => fail EmptyInput
  | _ :: _ =>
      let pointcloud := ingestPointcloud cloud_msg in
      this <- get ;;
      match weighing_function_ (base this) with
      | None => invoke (CallPointcloud sensor_to_world pointcloud)
      | Some wf =>
          invoke (CallPointcloudWithWeights sensor_to_world pointcloud
                    (computeWeights_cloud wf pointcloud))
      end
  end.

End Dispatcher.

(** Whether an insertion call passes the validation of the ingestion stage. *)
Definition valid_disparity_input (cfg : Settings) (disparity : Mat)
  (full_image_size : Vector2d) : bool :=
  negb (Mat_empty disparity)
  && consistent_dimensions cfg disparity full_image_size.

Definition valid_cloud_input (cloud_msg : PointCloud2) : bool :=
  match cloud_msg with
  | [] => false
  | _ :: _ => true
  end.

(** ** The routing table *)

(** The call the routing table selects for a disparity image. *)
Definition disparity_call (cfg : Settings) (this : WorldBase)
  (T : Transformation)
  (disparity : Mat) (Q_full : Matrix4d) (full_image_size : Vector2d)
  : HookCall :=
  let pts :=
    reprojectImageTo3D cfg (rescaleQ cfg Q_full disparity full_image_size)
      disparity in
  match weighing_function_ this with
  | None => CallProjectedDisparity T pts
  | Some wf =>
      CallProjectedDisparityWithWeights T pts
        (computeWeights_disparity wf disparity)
  end.

(** The call the routing table selects for a point cloud. *)
Definition cloud_call (this : WorldBase) (T : Transformation)
  (cloud_msg : PointCloud2) : HookCall :=
  let pts := ingestPointcloud cloud_msg in
  match weighing_function_ this with
  | None => CallPointcloud T pts
  | Some wf => CallPointcloudWithWeights T pts (computeWeights_cloud wf pts)
  end.

(** ** Sample data *)

(** [2^-20] *)
Definition sample_epsilon : double := Double.scaled 1 (-20).

(** The full image size and the disparity image have the same aspect ratio:
    [full width * rows = full height * cols]. *)
Definition same_ratio (disparity : Mat) (full_image_size : Vector2d) : bool :=
  SFeqb
    (Double.mul (v2x full_image_size) (Double.of_Z (Z.of_nat (rows disparity))))
    (Double.mul (v2y full_image_size)
       (Double.of_Z (Z.of_nat (cols disparity)))).

Definition sample_settings : Settings :=
  {| w_epsilon := sample_epsilon;
     baseline_epsilon := sample_epsilon;
     is_sentinel := fun d => Double.is_nan d;
     consistent_dimensions := same_ratio;
     rescaleQ := fun Q _ _ => Q |}.

Definition identity_transformation : Transformation :=
  mkTransformation
    (mkQuaternion Double.one Double.zero Double.zero Double.zero)
    Vector3d_Zero.

(** A camera with [fx = fy = 500] and principal point [(320, 240)]. *)
Definition sample_camera : Matrix3d :=
  {| m00 := Double.of_Z 500; m01 := Double.zero; m02 := Double.of_Z 320;
     m10 := Double.zero; m11 := Double.of_Z 500; m12 := Double.of_Z 240;
     m20 := Double.zero; m21 := Double.zero; m22 := Double.one |}.

(** [0.125] *)
Definition sample_baseline : double := Double.scaled 1 (-3).

Definition sample_Q : Matrix4d :=
  depth_matrix sample_baseline (Double.of_Z 320) (Double.of_Z 240)
    (Double.of_Z 500) (Double.of_Z 500) (Double.of_Z 320).

(** A 1x1 disparity image with disparity [d]. *)
Definition constant_image (d : double) : Mat :=
  {| rows := 1; cols := 1; at_ := fun _ _ => d |}.

Definition sample_size : Vector2d :=
  mkVector2d Double.one Double.one.

Definition sample_weighing : WeighingFunction :=
  {| computeWeightForDisparity := fun d => Double.abs d;
     computeWeightForPoint := fun p => Double.one |}.

Definition empty_image : Mat :=
  {| rows := 0; cols := 0; at_ := fun _ _ => Double.zero |}.

Definition sample_cloud : PointCloud2 :=
  [ mkPointRecord Double.one Double.zero (Double.of_Z 2) [];
    mkPointRecord Double.nan Double.zero Double.one
      [("intensity"%string, Double.one)];
    mkPointRecord Double.zero (S754_infinity false) Double.one [];
    mkPointRecord (Double.of_Z 3) Double.one Double.one [] ].

(** ** Sequences of calls on the default backend

    A client of a [WorldBase] object calls its member functions one after
    the other.  [Call] lists the calls whose bodies the header gives and
    that can change the object or write to the log: the two edits, the
    setter of the weighing function and the four insertion hooks. *)
Inductive Call : Type :=
  | DoSetFree (position bounding_box_size : Vector3d)
  | DoSetOccupied (position bounding_box_size : Vector3d)
  | DoSetWeighingFunction (weighing_function : option WeighingFunction)
  | DoHook (c : HookCall).

Definition perform (c : Call) : M WorldBase unit :=
  match c with
  | DoSetFree position bounding_box_size =>
      setFree position bounding_box_size
  | DoSetOccupied position bounding_box_size =>
      setOccupied position bounding_box_size
  | DoSetWeighingFunction weighing_function =>
      setWeighingFunction weighing_function
  | DoHook c => hook_body c
  end.

Fixpoint perform_all (cs : list Call) : M WorldBase unit :=
  match cs with
  | [] => ret tt
  | c :: cs' => perform c ;;; perform_all cs'
  end.

(** The argument of the last [setWeighingFunction] of a sequence, [init] when
    the sequence has none. *)
Fixpoint last_weighing_function
  (cs : list Call) (init : option WeighingFunction)
  : option WeighingFunction :=
  match cs with
  | [] => init
  | DoSetWeighingFunction wf :: cs' => last_weighing_function cs' wf
  | _ :: cs' => last_weighing_function cs' init
  end.

Definition is_hook_call (c : Call) : bool :=
  match c with
  | DoHook _ => true
  | _ => false
  end.

(** * Properties *)

(** ** The largest finite double *)

Lemma digits2_pos_bound (m : positive) :
  Z.pos m < 2 ^ Z.pos (digits2_pos m).
Proof.
  induction m as [m IH | m IH | ]; cbn [digits2_pos];
    rewrite ?Pos2Z.inj_succ, ?Z.pow_succ_r by lia; lia.
Qed.

Lemma max_value : Double.max = S754_finite false 9007199254740991 971.
Proof. vm_compute. reflexivity. Qed.

(** A finite binary64 number has an exponent of at most [971], and at that
    exponent a mantissa below [2^53]. *)
Lemma valid_finite_bounds (s : bool) (m : positive) (e : Z) :
  Double.valid (S754_finite s m e) = true ->
  e <= 971 /\ (e = 971 -> Z.pos m <= 9007199254740991).
Proof.
  unfold Double.valid, valid_binary, bounded, canonical_mantissa, fexp, emin,
    Double.prec, Double.emax.
  intros Hv. apply andb_true_iff in Hv as [Hc He].
  apply Z.eqb_eq in Hc. apply Z.leb_le in He.
  split; [lia |]. intros ->.
  assert (Hd : Z.pos (digits2_pos m) <= 53) by lia.
  pose proof (digits2_pos_bound m) as Hm.
  assert (Hp : 2 ^ Z.pos (digits2_pos m) <= 2 ^ 53)
    by (apply Z.pow_le_mono_r; lia).
  change (2 ^ 53) with 9007199254740992 in Hp.
  lia.
Qed.

Lemma max_is_greatest (x : double) :
  Double.valid x = true -> Double.is_finite x = true ->
  Double.leb x Double.max = true.
Proof.
  rewrite max_value. unfold Double.leb.
  destruct x as [s | s | | s m e]; cbn [Double.is_finite]; try discriminate.
  - reflexivity.
  - intros Hv _. destruct s; [reflexivity |].
    apply valid_finite_bounds in Hv as [He Hm].
    unfold SFleb, SFcompare.
    destruct (Z.compare_spec e 971) as [E | E | E]; [ | reflexivity | lia].
    specialize (Hm E).
    destruct (Pos.compare_cont Eq m 9007199254740991) eqn:Ec;
      try reflexivity.
    exfalso. apply Hm. exact Ec.
Qed.

(** ** The default backend: queries and edits *)

(** C1: on the default backend, [getCellStatusPoint],
    [getCellStatusBoundingBox], [getLineStatus] and
    [getLineStatusBoundingBox] return [kFree] for every object and every
    input, also for a bounding box of size zero and for a line whose start
    and end coincide, whether they are called directly or through the
    virtual table; the value returned is one of the three enumerators
    (its integer value lies between 0 and 2). *)
Theorem default_queries_return_free
  (this : WorldBase) (point start end_ bounding_box : Vector3d) :
  getCellStatusPoint this point = kFree /\
  getCellStatusBoundingBox this point bounding_box = kFree /\
  getLineStatus this start end_ = kFree /\
  getLineStatusBoundingBox this start end_ bounding_box = kFree /\
  getCellStatusBoundingBox this point Vector3d_Zero = kFree /\
  getLineStatus this start start = kFree /\
  getLineStatusBoundingBox this start start Vector3d_Zero = kFree /\
  v_getCellStatusPoint this point = kFree /\
  v_getCellStatusBoundingBox this point bounding_box = kFree /\
  v_getLineStatus this start end_ = kFree /\
  v_getLineStatusBoundingBox this start end_ bounding_box = kFree /\
  0 <= CellStatus_value (getCellStatusPoint this point) <= 2 /\
  0 <= CellStatus_value
         (getCellStatusBoundingBox this point bounding_box) <= 2 /\
  0 <= CellStatus_value (getLineStatus this start end_) <= 2 /\
  0 <= CellStatus_value
         (getLineStatusBoundingBox this start end_ bounding_box) <= 2.
Proof.
  unfold getCellStatusPoint, getCellStatusBoundingBox, getLineStatus,
    getLineStatusBoundingBox; cbn.
  repeat split; lia.
Qed.

(** C2: on the default backend, [setFree] and [setOccupied] return normally,
    leave the object as it was and log nothing, for every position and
    bounding-box size, so every query answers after the call what it
    answered before; in particular [getCellStatusPoint] at [p] after
    [setOccupied] at [p] is [kFree]. *)
Theorem default_edits_are_noops
  (this : WorldBase) (position bounding_box_size p q b : Vector3d) :
  setFree position bounding_box_size this = mkOutcome (Ok tt) this [] /\
  setOccupied position bounding_box_size this = mkOutcome (Ok tt) this [] /\
  v_setFree position bounding_box_size this = mkOutcome (Ok tt) this [] /\
  v_setOccupied position bounding_box_size this = mkOutcome (Ok tt) this [] /\
  (let this' := final (setOccupied position bounding_box_size this) in
   getCellStatusPoint this' p = getCellStatusPoint this p /\
   getCellStatusBoundingBox this' p b = getCellStatusBoundingBox this p b /\
   getLineStatus this' p q = getLineStatus this p q /\
   getLineStatusBoundingBox this' p q b
     = getLineStatusBoundingBox this p q b /\
   getMapCenter this' = getMapCenter this /\
   getMapSize this' = getMapSize this /\
   isWeighingFunctionSet this' = isWeighingFunctionSet this) /\
  getCellStatusPoint (final (setOccupied p bounding_box_size this)) p = kFree.
Proof.
  repeat split.
Qed.

(** C8: [isWeighingFunctionSet] is true exactly when the stored pointer is
    not null; it is false on a freshly constructed [WorldBase], true after
    [setWeighingFunction] with a strategy, and false again after
    [setWeighingFunction] with a null pointer. *)
Theorem isWeighingFunctionSet_tracks_pointer
  (this : WorldBase) (wf : WeighingFunction) :
  (isWeighingFunctionSet this = true <-> weighing_function_ this <> None) /\
  isWeighingFunctionSet WorldBase_new = false /\
  isWeighingFunctionSet (final (setWeighingFunction (Some wf) this)) = true /\
  isWeighingFunctionSet (final (setWeighingFunction None this)) = false /\
  isWeighingFunctionSet
    (final ((setWeighingFunction (Some wf) ;;; setWeighingFunction None)
              WorldBase_new)) = false.
Proof.
  unfold isWeighingFunctionSet.
  repeat split; cbn; try congruence.
  - destruct (weighing_function_ this); congruence.
  - destruct (weighing_function_ this); congruence.
Qed.

(** C9: the default [getMapCenter] is the origin and the default
    [getMapSize] has [std::numeric_limits<double>::max()] in each axis; that
    value is a finite binary64 number, [(2^53 - 1) * 2^971], neither an
    infinity nor NaN, and no finite binary64 number is larger. *)
Theorem default_map_extent
  (this : WorldBase) (x : double)
  (Hvalid : Double.valid x = true) (Hfinite : Double.is_finite x = true) :
  getMapCenter this = mkVector3d (S754_zero false) (S754_zero false)
                        (S754_zero false) /\
  getMapSize this = mkVector3d Double.max Double.max Double.max /\
  Double.max = S754_finite false (2 ^ 53 - 1) 971 /\
  Double.valid Double.max = true /\
  Double.is_finite Double.max = true /\
  Vector3d_is_finite (getMapSize this) = true /\
  Double.leb x Double.max = true.
Proof.
  repeat split.
  apply max_is_greatest; assumption.
Qed.

Lemma default_map_extent_witness :
  Double.leb (Double.of_Z 7) Double.max = true.
Proof.
  apply (default_map_extent WorldBase_new (Double.of_Z 7));
    vm_compute; reflexivity.
Defined.

(** ** The dispatcher *)

Section DispatcherFacts.

Context {S : Type} `{Backend S}.
Variable cfg : Settings.

Lemma invoke_result (c : HookCall) (s : S) :
  result (invoke c s) = result (hook_body c s).
Proof.
  unfold invoke, bind, emit; cbn.
  destruct (result (hook_body c s)); reflexivity.
Qed.

Lemma invoke_final (c : HookCall) (s : S) :
  final (invoke c s) = final (hook_body c s).
Proof.
  unfold invoke, bind, emit; cbn.
  destruct (result (hook_body c s)); reflexivity.
Qed.

Lemma invoke_events (c : HookCall) (s : S) :
  events (invoke c s) = Called c :: events (hook_body c s).
Proof.
  unfold invoke, bind, emit; cbn.
  destruct (result (hook_body c s)); reflexivity.
Qed.

Lemma insertDisparityImage_valid
  (T : Transformation) (disparity : Mat) (Q_full : Matrix4d)
  (size : Vector2d) (s : S) :
  valid_disparity_input cfg disparity size = true ->
  let o := insertDisparityImage cfg T disparity Q_full size s in
  let c := disparity_call cfg (base s) T disparity Q_full size in
  result o = result (hook_body c s) /\
  final o = final (hook_body c s) /\
  events o = Called c :: events (hook_body c s).
Proof.
  unfold valid_disparity_input. intros Hv.
  apply andb_true_iff in Hv as [Hne Hc].
  apply negb_true_iff in Hne.
  unfold insertDisparityImage, disparity_call. rewrite Hne, Hc. cbn.
  unfold bind, get; cbn.
  destruct (weighing_function_ (base s)) as [wf |];
    rewrite invoke_result, invoke_final, invoke_events;
    destruct (result (hook_body _ s)); cbn; auto.
Qed.

Lemma insertPointcloud_valid
  (T : Transformation) (cloud_msg : PointCloud2) (s : S) :
  valid_cloud_input cloud_msg = true ->
  let o := insertPointcloud T cloud_msg s in
  let c := cloud_call (base s) T cloud_msg in
  result o = result (hook_body c s) /\
  final o = final (hook_body c s) /\
  events o = Called c :: events (hook_body c s).
Proof.
  destruct cloud_msg as [| r msg]; [discriminate |]. intros _.
  unfold insertPointcloud, cloud_call.
  unfold bind, get; cbn.
  destruct (weighing_function_ (base s)) as [wf |];
    rewrite invoke_result, invoke_final, invoke_events;
    destruct (result (hook_body _ s)); cbn; auto.
Qed.

Lemma insertDisparityImage_invalid
  (T : Transformation) (disparity : Mat) (Q_full : Matrix4d)
  (size : Vector2d) (s : S) :
  valid_disparity_input cfg disparity size = false ->
  insertDisparityImage cfg T disparity Q_full size s
  = mkOutcome
      (Err (if Mat_empty disparity then EmptyInput else DimensionMismatch))
      s [].
Proof.
  unfold valid_disparity_input, insertDisparityImage. intros Hv.
  destruct (Mat_empty disparity); [reflexivity |].
  cbn in Hv. rewrite Hv. reflexivity.
Qed.

Lemma hooks_called_cons (c : HookCall) (es : list Event) :
  hooks_called (Called c :: es) = hook_of c :: hooks_called es.
Proof. reflexivity. Qed.

End DispatcherFacts.

(** The default hooks only log. *)
Lemma default_hooks_call_no_hook (c : HookCall) (this : WorldBase) :
  calls_made (events (hook_body c this)) = [].
Proof. destruct c; reflexivity. Qed.

(** C3: an insertion call that passes validation calls exactly one hook, on
    any backend whose hooks call no hook themselves: the hook with weights
    of the call's modality when a weighing function is set in the dispatcher
    at the time of the call, the hook without weights of that modality
    otherwise. *)
Theorem insertion_calls_exactly_one_hook
  {S : Type} `{Backend S} (cfg : Settings)
  (Hquiet : forall c s, calls_made (events (hook_body c s)) = [])
  (T : Transformation) (disparity : Mat) (disparity_msg : DisparityImage)
  (Q_full : Matrix4d) (size : Vector2d) (cloud_msg : PointCloud2) (s : S)
  (Himage : valid_disparity_input cfg disparity size = true)
  (Hmsg : valid_disparity_input cfg (image disparity_msg) size = true)
  (Hcloud : valid_cloud_input cloud_msg = true) :
  hooks_called (events (insertDisparityImage cfg T disparity Q_full size s))
  = [if isWeighingFunctionSet (base s)
     then ProjectedDisparityWithWeightsImpl else ProjectedDisparityImpl] /\
  hooks_called
    (events (insertDisparityImage_msg cfg T disparity_msg Q_full size s))
  = [if isWeighingFunctionSet (base s)
     then ProjectedDisparityWithWeightsImpl else ProjectedDisparityImpl] /\
  hooks_called (events (insertPointcloud T cloud_msg s))
  = [if isWeighingFunctionSet (base s)
     then PointcloudWithWeightsImpl else PointcloudImpl].
Proof.
  assert (Hq : forall c, hooks_called (events (hook_body c s)) = []).
  { intros c. unfold hooks_called. now rewrite Hquiet. }
  unfold insertDisparityImage_msg.
  destruct (insertDisparityImage_valid cfg T disparity Q_full size s Himage)
    as (_ & _ & ->).
  destruct (insertDisparityImage_valid cfg T (image disparity_msg) Q_full
              size s Hmsg) as (_ & _ & ->).
  destruct (insertPointcloud_valid T cloud_msg s Hcloud) as (_ & _ & ->).
  rewrite !hooks_called_cons, !Hq.
  unfold disparity_call, cloud_call, isWeighingFunctionSet.
  destruct (weighing_function_ (base s)); auto.
Qed.

Lemma insertion_calls_exactly_one_hook_witness :
  hooks_called
    (events (insertDisparityImage sample_settings identity_transformation
               (constant_image Double.one) sample_Q sample_size
               (mkWorldBase (Some sample_weighing))))
  = [ProjectedDisparityWithWeightsImpl] /\
  hooks_called
    (events (insertPointcloud identity_transformation sample_cloud
               WorldBase_new))
  = [PointcloudImpl].
Proof.
  split.
  - apply (insertion_calls_exactly_one_hook sample_settings
             default_hooks_call_no_hook
             identity_transformation (constant_image Double.one)
             (mkDisparityImage (constant_image Double.one)) sample_Q
             sample_size sample_cloud (mkWorldBase (Some sample_weighing)));
      reflexivity.
  - apply (insertion_calls_exactly_one_hook sample_settings
             default_hooks_call_no_hook
             identity_transformation (constant_image Double.one)
             (mkDisparityImage (constant_image Double.one)) sample_Q
             sample_size sample_cloud WorldBase_new);
      reflexivity.
Defined.

(** C4: each of the four default insertion hooks logs one line of severity
    ERROR, returns normally and leaves the object as it was; hence an
    insertion call with valid input on the default backend returns normally
    with the object unchanged, having logged that one line. *)
Theorem default_hooks_log_and_return
  (cfg : Settings) (this : WorldBase) (T : Transformation)
  (projected_points : Mat3) (weights : Mat) (pointcloud : PointCloud)
  (cloud_weights : list double)
  (disparity : Mat) (Q_full : Matrix4d) (size : Vector2d)
  (cloud_msg : PointCloud2)
  (Himage : valid_disparity_input cfg disparity size = true)
  (Hcloud : valid_cloud_input cloud_msg = true) :
  insertProjectedDisparityIntoMapImpl T projected_points this
  = mkOutcome (Ok tt) this
      [Logged (mkLogLine ERROR "Calling unimplemented disparity insertion!")]
  /\
  insertProjectedDisparityIntoMapWithWeightsImpl T projected_points weights
    this
  = mkOutcome (Ok tt) this
      [Logged (mkLogLine ERROR "Calling unimplemented disparity insertion!")]
  /\
  insertPointcloudIntoMapImpl T pointcloud this
  = mkOutcome (Ok tt) this
      [Logged (mkLogLine ERROR "Calling unimplemented pointcloud insertion!")]
  /\
  insertPointcloudIntoMapWithWeightsImpl T pointcloud cloud_weights this
  = mkOutcome (Ok tt) this
      [Logged (mkLogLine ERROR "Calling unimplemented disparity insertion!")]
  /\
  (let o := insertDisparityImage cfg T disparity Q_full size this in
   result o = Ok tt /\ final o = this /\
   lines_logged (events o)
   = [mkLogLine ERROR "Calling unimplemented disparity insertion!"]) /\
  (let o := insertPointcloud T cloud_msg this in
   result o = Ok tt /\ final o = this /\
   exists msg, lines_logged (events o) = [mkLogLine ERROR msg]).
Proof.
  repeat (split; [reflexivity |]).
  split; cbv zeta.
  - destruct (insertDisparityImage_valid cfg T disparity Q_full size this
                Himage) as (-> & -> & ->).
    unfold disparity_call; cbn.
    destruct (weighing_function_ this); repeat split.
  - destruct (insertPointcloud_valid T cloud_msg this Hcloud)
      as (-> & -> & ->).
    unfold cloud_call; cbn.
    destruct (weighing_function_ this); repeat split; eexists; reflexivity.
Qed.

Lemma default_hooks_log_and_return_witness :
  result (insertDisparityImage sample_settings identity_transformation
            (constant_image Double.one) sample_Q sample_size WorldBase_new)
  = Ok tt /\
  result (insertPointcloud identity_transformation sample_cloud
            WorldBase_new)
  = Ok tt.
Proof.
  pose proof (default_hooks_log_and_return sample_settings WorldBase_new
                identity_transformation
                (reprojectImageTo3D sample_settings sample_Q
                   (constant_image Double.one))
                (constant_image Double.one) [] []
                (constant_image Double.one) sample_Q sample_size sample_cloud
                eq_refl eq_refl) as (_ & _ & _ & _ & Hd & Hc).
  split; [apply Hd | apply Hc].
Defined.

(** C5: an insertion call whose input fails validation (an empty disparity
    image, a disparity image whose dimensions are not consistent with the
    full image size, an empty cloud) stops with an error, on any backend,
    without an event (so no hook is called) and with the object as it
    was. *)
Theorem invalid_input_aborts_before_backend
  {S : Type} `{Backend S} (cfg : Settings)
  (T : Transformation) (disparity : Mat) (disparity_msg : DisparityImage)
  (Q_full : Matrix4d) (size : Vector2d) (s : S) :
  (valid_disparity_input cfg disparity size = false ->
   let o := insertDisparityImage cfg T disparity Q_full size s in
   is_Ok (result o) = false /\ final o = s /\ events o = [] /\
   hooks_called (events o) = []) /\
  (valid_disparity_input cfg (image disparity_msg) size = false ->
   let o := insertDisparityImage_msg cfg T disparity_msg Q_full size s in
   is_Ok (result o) = false /\ final o = s /\ events o = [] /\
   hooks_called (events o) = []) /\
  (Mat_empty disparity = true ->
   insertDisparityImage cfg T disparity Q_full size s
   = mkOutcome (Err EmptyInput) s []) /\
  (Mat_empty disparity = false ->
   consistent_dimensions cfg disparity size = false ->
   insertDisparityImage cfg T disparity Q_full size s
   = mkOutcome (Err DimensionMismatch) s []) /\
  insertPointcloud T [] s = mkOutcome (Err EmptyInput) s [].
Proof.
  split; [| split; [| split; [| split]]].
  - intros Hv. rewrite (insertDisparityImage_invalid cfg T _ _ _ s Hv).
    repeat split.
  - intros Hv. unfold insertDisparityImage_msg.
    rewrite (insertDisparityImage_invalid cfg T _ _ _ s Hv).
    repeat split.
  - intros He. unfold insertDisparityImage. rewrite He. reflexivity.
  - intros He Hc. unfold insertDisparityImage. rewrite He, Hc. reflexivity.
  - reflexivity.
Qed.

Lemma invalid_input_aborts_before_backend_witness :
  insertDisparityImage sample_settings identity_transformation empty_image
    sample_Q sample_size WorldBase_new
  = mkOutcome (Err EmptyInput) WorldBase_new [] /\
  insertPointcloud identity_transformation [] WorldBase_new
  = mkOutcome (Err EmptyInput) WorldBase_new [].
Proof.
  destruct (invalid_input_aborts_before_backend sample_settings
              identity_transformation empty_image
              (mkDisparityImage empty_image) sample_Q sample_size
              WorldBase_new) as (_ & _ & He & _ & Hc).
  split; [apply He; reflexivity | exact Hc].
Defined.

(** ** Ingestion *)

(** With a bound [eps >= 0], a number bounded away from zero is neither a
    zero nor NaN. *)
Lemma bounded_away_not_zero (eps x : double) :
  Double.leb Double.zero eps = true ->
  bounded_away eps x = true ->
  match x with
  | S754_zero _ | S754_nan => False
  | S754_infinity _ | S754_finite _ _ _ => True
  end.
Proof.
  unfold bounded_away, Double.leb, Double.ltb, Double.abs, Double.zero.
  destruct x as [s | s | | s m e]; cbn; auto.
  - destruct eps as [t | [|] | | [|] m e]; cbn; discriminate.
  - destruct eps as [t | t | | t m e]; cbn; discriminate.
Qed.

Lemma invalid_point_not_finite : Vector3d_is_finite invalid_point = false.
Proof. reflexivity. Qed.

Lemma reprojectPixel_cases
  (cfg : Settings) (Q : Matrix4d) (col row : nat) (d : double) :
  let W := homogeneous_W Q (Double.of_Z (Z.of_nat col))
             (Double.of_Z (Z.of_nat row)) d in
  match reprojectPixel cfg Q col row d with
  | NoDisparity => valid_disparity cfg d = false
  | NoDepth W' =>
      valid_disparity cfg d = true /\ W' = W /\
      bounded_away (w_epsilon cfg) W = false
  | Divided W' _ =>
      valid_disparity cfg d = true /\ W' = W /\
      bounded_away (w_epsilon cfg) W = true
  end.
Proof.
  unfold reprojectPixel, homogeneous_W.
  destruct (valid_disparity cfg d); [| reflexivity].
  destruct (homogeneous Q _ _ d) as [[[X Y] Z] W]; cbn [snd].
  destruct (bounded_away (w_epsilon cfg) W) eqn:E; auto.
Qed.

(** C6: in disparity ingestion, a pixel whose disparity is at most zero or
    is the sentinel, and a pixel whose homogeneous [W] is not bounded away
    from zero, gets the explicit invalid marker in the point field, which is
    not a finite point; and whenever the perspective divide is performed,
    its divisor [W] is bounded away from zero (and, for a bound that is not
    negative, is neither zero nor NaN). *)
Theorem invalid_pixels_are_marked
  (cfg : Settings) (Q : Matrix4d) (disparity : Mat) (row col : nat)
  (Hpixel :
     Double.leb (at_ disparity row col) Double.zero = true \/
     is_sentinel cfg (at_ disparity row col) = true \/
     bounded_away (w_epsilon cfg)
       (homogeneous_W Q (Double.of_Z (Z.of_nat col))
          (Double.of_Z (Z.of_nat row)) (at_ disparity row col)) = false) :
  at3 (reprojectImageTo3D cfg Q disparity) row col = invalid_point /\
  Vector3d_is_finite (at3 (reprojectImageTo3D cfg Q disparity) row col)
  = false /\
  (forall W p, reprojectPixel cfg Q col row (at_ disparity row col)
               <> Divided W p) /\
  (forall r c W p,
     reprojectPixel cfg Q c r (at_ disparity r c) = Divided W p ->
     W = homogeneous_W Q (Double.of_Z (Z.of_nat c))
           (Double.of_Z (Z.of_nat r)) (at_ disparity r c) /\
     bounded_away (w_epsilon cfg) W = true /\
     Double.leb (at_ disparity r c) Double.zero = false /\
     is_sentinel cfg (at_ disparity r c) = false /\
     (Double.leb Double.zero (w_epsilon cfg) = true ->
      match W with
      | S754_zero _ | S754_nan => False
      | S754_infinity _ | S754_finite _ _ _ => True
      end)).
Proof.
  assert (Hnot : forall W p,
            reprojectPixel cfg Q col row (at_ disparity row col)
            <> Divided W p).
  { intros W p E.
    pose proof (reprojectPixel_cases cfg Q col row (at_ disparity row col))
      as Hc.
    rewrite E in Hc. cbv zeta in Hc. destruct Hc as (Hv & -> & Hb).
    unfold valid_disparity in Hv. apply negb_true_iff in Hv.
    apply orb_false_iff in Hv as [Hle Hs].
    destruct Hpixel as [Hp | [Hp | Hp]]; congruence. }
  assert (Hinv : at3 (reprojectImageTo3D cfg Q disparity) row col
                 = invalid_point).
  { cbn [at3 reprojectImageTo3D].
    destruct (reprojectPixel cfg Q col row (at_ disparity row col))
      as [| W | W p]; try reflexivity.
    exfalso. exact (Hnot W p eq_refl). }
  split; [exact Hinv |].
  split; [rewrite Hinv; reflexivity |].
  split; [exact Hnot |].
  intros r c W p E.
  pose proof (reprojectPixel_cases cfg Q c r (at_ disparity r c)) as Hc.
  rewrite E in Hc. cbv zeta in Hc. destruct Hc as (Hv & HW & Hb).
  unfold valid_disparity in Hv. apply negb_true_iff in Hv.
  apply orb_false_iff in Hv as [Hle Hs].
  repeat split; auto.
  - now rewrite HW.
  - intros Heps. apply (bounded_away_not_zero (w_epsilon cfg)); auto.
    now rewrite HW.
Qed.

Lemma invalid_pixels_are_marked_witness :
  at3 (reprojectImageTo3D sample_settings sample_Q
         (constant_image (Double.opp Double.one))) 0 0
  = invalid_point.
Proof.
  apply (invalid_pixels_are_marked sample_settings sample_Q
           (constant_image (Double.opp Double.one)) 0 0).
  left. reflexivity.
Defined.

(** C7: point-cloud ingestion conserves cardinality: the valid output points
    and the excluded points, which are the input points with a coordinate
    that is not finite, together are as many as the input points; the
    weights computed for the output are as many as the output points, the
    weight at an index being the weight of the point at that index; and
    when the default backend's dispatcher calls the hook with weights, the
    weights it passes are as many as the points it passes. *)
Theorem pointcloud_ingestion_conserves_cardinality
  (cloud_msg : PointCloud2) (wf : WeighingFunction) :
  (length (ingestPointcloud cloud_msg)
   + length (excludedPoints cloud_msg) = length cloud_msg)%nat /\
  Forall (fun p => Vector3d_is_finite p = true)
    (ingestPointcloud cloud_msg) /\
  Forall (fun p => Vector3d_is_finite p = false)
    (excludedPoints cloud_msg) /\
  length (computeWeights_cloud wf (ingestPointcloud cloud_msg))
  = length (ingestPointcloud cloud_msg) /\
  (forall i,
     nth_error (computeWeights_cloud wf (ingestPointcloud cloud_msg)) i
     = option_map (computeWeightForPoint wf)
         (nth_error (ingestPointcloud cloud_msg) i)) /\
  (forall (this : WorldBase) T T' pointcloud weights,
     In (Called (CallPointcloudWithWeights T' pointcloud weights))
        (events (insertPointcloud T cloud_msg this)) ->
     length weights = length pointcloud /\
     (length pointcloud + length (excludedPoints cloud_msg)
      = length cloud_msg)%nat).
Proof.
  assert (Hlen : (length (ingestPointcloud cloud_msg)
                  + length (excludedPoints cloud_msg)
                  = length cloud_msg)%nat).
  { unfold ingestPointcloud, excludedPoints.
    rewrite <- (length_map xyz cloud_msg).
    induction (map xyz cloud_msg) as [| p l IH]; cbn; [reflexivity |].
    destruct (Vector3d_is_finite p); cbn; lia. }
  split; [exact Hlen |].
  split.
  { apply Forall_forall. intros p Hp. now apply filter_In in Hp. }
  split.
  { apply Forall_forall. intros p Hp. apply filter_In in Hp as [_ Hp].
    now apply negb_true_iff. }
  split; [apply length_map |].
  split; [intros i; apply nth_error_map |].
  intros this T T' pointcloud weights Hin.
  destruct cloud_msg as [| r msg]; [destruct Hin |].
  assert (Hv : valid_cloud_input (r :: msg) = true) by reflexivity.
  destruct (insertPointcloud_valid T (r :: msg) this Hv) as (_ & _ & Hev).
  revert Hin. rewrite Hev. unfold cloud_call.
  cbn [base WorldBase_Backend].
  destruct (weighing_function_ this) as [wf' |]; intros [E | Hin].
  - inversion E; subst. split; [apply length_map | exact Hlen].
  - cbn in Hin. destruct Hin as [E | []]. discriminate E.
  - discriminate E.
  - cbn in Hin. destruct Hin as [E | []]. discriminate E.
Qed.

Lemma pointcloud_ingestion_conserves_cardinality_witness :
  (length (ingestPointcloud sample_cloud)
   + length (excludedPoints sample_cloud) = length sample_cloud)%nat.
Proof.
  apply (pointcloud_ingestion_conserves_cardinality sample_cloud
           sample_weighing).
Defined.

(** C10: for a camera pair whose baseline, the magnitude of the translation
    between the camera frames, is not bounded away from zero,
    [getQForCameras] and [generateQ] return the error [DegenerateBaseline]
    and no matrix; a baseline that is zero is such a baseline when the
    bound is not negative; and when a matrix is returned, the baseline it
    was computed from is bounded away from zero. *)
Theorem degenerate_baseline_is_an_error
  (cfg : Settings) (T_C1_C0 : Transformation)
  (left_cam_matrix right_cam_matrix : Matrix3d) (full_image_size : Vector2d)
  (Tx lcx lcy lfx lfy rcx rcy rfx rfy : double) :
  (bounded_away (baseline_epsilon cfg) (norm (translation T_C1_C0)) = false ->
   getQForCameras cfg T_C1_C0 left_cam_matrix right_cam_matrix
     full_image_size = Err DegenerateBaseline) /\
  (bounded_away (baseline_epsilon cfg) Tx = false ->
   generateQ cfg Tx lcx lcy lfx lfy rcx rcy rfx rfy
   = Err DegenerateBaseline) /\
  (Double.leb Double.zero (baseline_epsilon cfg) = true ->
   forall s, generateQ cfg (S754_zero s) lcx lcy lfx lfy rcx rcy rfx rfy
             = Err DegenerateBaseline) /\
  (forall Q,
     getQForCameras cfg T_C1_C0 left_cam_matrix right_cam_matrix
       full_image_size = Ok Q ->
     bounded_away (baseline_epsilon cfg) (norm (translation T_C1_C0))
     = true) /\
  (forall Q,
     generateQ cfg Tx lcx lcy lfx lfy rcx rcy rfx rfy = Ok Q ->
     bounded_away (baseline_epsilon cfg) Tx = true /\
     Q = depth_matrix Tx lcx lcy lfx lfy rcx).
Proof.
  unfold getQForCameras, generateQ.
  split; [now intros -> |].
  split; [now intros -> |].
  split.
  { intros Heps s.
    destruct (bounded_away (baseline_epsilon cfg) (S754_zero s)) eqn:E;
      [| reflexivity].
    destruct (bounded_away_not_zero _ _ Heps E). }
  split.
  - intros Q.
    destruct (bounded_away (baseline_epsilon cfg) (norm (translation T_C1_C0)));
      [reflexivity | discriminate].
  - intros Q.
    destruct (bounded_away (baseline_epsilon cfg) Tx);
      [| discriminate].
    intros E. split; [reflexivity | congruence].
Qed.

Lemma degenerate_baseline_is_an_error_witness :
  getQForCameras sample_settings identity_transformation sample_camera
    sample_camera sample_size = Err DegenerateBaseline.
Proof.
  apply (degenerate_baseline_is_an_error sample_settings
           identity_transformation sample_camera sample_camera sample_size
           Double.zero Double.zero Double.zero Double.zero Double.zero
           Double.zero Double.zero Double.zero Double.zero).
  reflexivity.
Defined.

(** ** Sanity checks of the modelled geometry *)

(** With [fx = fy = 500], baseline [0.125] and the principal point at
    [(320, 240)], the pixel at the principal point with disparity [2] is
    reprojected to [X = Y = 0], [Z = 0.125 * 500 / 2 = 31.25]. *)
Example reproject_principal_point :
  at3 (reprojectImageTo3D sample_settings sample_Q
         {| rows := 480; cols := 640;
            at_ := fun _ _ => Double.of_Z 2 |}) 240 320
  = mkVector3d Double.zero Double.zero (Double.scaled 125 (-2)).
Proof. vm_compute. reflexivity. Qed.

(** Of the four sample records, the two with a NaN or an infinite coordinate
    are excluded, and the other fields are stripped. *)
Example ingest_sample_cloud :
  ingestPointcloud sample_cloud
  = [mkVector3d Double.one Double.zero (Double.of_Z 2);
     mkVector3d (Double.of_Z 3) Double.one Double.one] /\
  length (excludedPoints sample_cloud) = 2%nat.
Proof. vm_compute. split; reflexivity. Qed.

(** Without the guard, a zero baseline would give the depth scale an
    infinite entry. *)
Example unguarded_zero_baseline :
  q32 (depth_matrix Double.zero (Double.of_Z 320) (Double.of_Z 240)
         (Double.of_Z 500) (Double.of_Z 500) (Double.of_Z 320))
  = S754_infinity false.
Proof. reflexivity. Qed.

(** On the default backend a valid insertion records the hook call and the
    line the hook logs. *)
Example insert_sample_cloud :
  events (insertPointcloud identity_transformation sample_cloud
            (mkWorldBase (Some sample_weighing)))
  = [Called (CallPointcloudWithWeights identity_transformation
               (ingestPointcloud sample_cloud) [Double.one; Double.one]);
     Logged (mkLogLine ERROR "Calling unimplemented disparity insertion!")].
Proof. reflexivity. Qed.

(** ** Further properties of the default backend *)

Lemma valid_abs (x : double) : Double.valid (Double.abs x) = Double.valid x.
Proof.
  unfold Double.valid, Double.abs.
  destruct x; cbn [SFabs valid_binary]; reflexivity.
Qed.

Lemma within_max_iff_finite (x : double) :
  Double.valid x = true ->
  Double.leb (Double.abs x) Double.max = true <-> Double.is_finite x = true.
Proof.
  intros Hv. split.
  - rewrite max_value. unfold Double.leb, SFleb, Double.abs.
    destruct x as [s | s | | s m e]; cbn [SFabs SFcompare Double.is_finite];
      try reflexivity; discriminate.
  - intros Hf. apply max_is_greatest.
    + rewrite valid_abs. exact Hv.
    + destruct x; try discriminate Hf; reflexivity.
Qed.

(** X1: a point of binary64 coordinates lies within the extent that the
    default [getMapSize] reports, each coordinate at most the size of its
    axis in absolute value, exactly when all its coordinates are finite. *)
Theorem default_extent_holds_the_finite_points
  (this : WorldBase) (p : Vector3d)
  (Hx : Double.valid (vx p) = true)
  (Hy : Double.valid (vy p) = true)
  (Hz : Double.valid (vz p) = true) :
  Double.leb (Double.abs (vx p)) (vx (getMapSize this))
  && Double.leb (Double.abs (vy p)) (vy (getMapSize this))
  && Double.leb (Double.abs (vz p)) (vz (getMapSize this)) = true
  <-> Vector3d_is_finite p = true.
Proof.
  unfold Vector3d_is_finite, getMapSize; cbn [vx vy vz].
  rewrite !andb_true_iff.
  rewrite (within_max_iff_finite _ Hx), (within_max_iff_finite _ Hy),
    (within_max_iff_finite _ Hz).
  reflexivity.
Qed.

Lemma default_extent_holds_the_finite_points_witness :
  Double.leb (Double.abs (vx (mkVector3d (Double.of_Z (-3)) Double.one
                                 (S754_infinity true))))
    (vx (getMapSize WorldBase_new))
  && Double.leb (Double.abs (vy (mkVector3d (Double.of_Z (-3)) Double.one
                                    (S754_infinity true))))
       (vy (getMapSize WorldBase_new))
  && Double.leb (Double.abs (vz (mkVector3d (Double.of_Z (-3)) Double.one
                                    (S754_infinity true))))
       (vz (getMapSize WorldBase_new)) = true
  <-> Vector3d_is_finite (mkVector3d (Double.of_Z (-3)) Double.one
                            (S754_infinity true)) = true.
Proof.
  apply (default_extent_holds_the_finite_points WorldBase_new
           (mkVector3d (Double.of_Z (-3)) Double.one (S754_infinity true)));
    reflexivity.
Defined.

(** Every single call returns normally. *)
Lemma perform_result (c : Call) (this : WorldBase) :
  result (perform c this) = Ok tt.
Proof. destruct c as [? ? | ? ? | ? | []]; reflexivity. Qed.

Lemma perform_all_cons (c : Call) (cs : list Call) (this : WorldBase) :
  let o := perform c this in
  let o' := perform_all cs (final o) in
  result (perform_all (c :: cs) this) = result o' /\
  final (perform_all (c :: cs) this) = final o' /\
  events (perform_all (c :: cs) this) = events o ++ events o'.
Proof.
  cbn [perform_all]. unfold bind. rewrite perform_result. cbn. auto.
Qed.

(** X2: after any sequence of edits, setter calls and hook calls on the
    default backend, the stored weighing function is the argument of the
    last [setWeighingFunction] of the sequence, and the one the object had
    before when the sequence has none; [isWeighingFunctionSet] answers
    accordingly. *)
Theorem last_setWeighingFunction_wins (cs : list Call) (this : WorldBase) :
  weighing_function_ (final (perform_all cs this))
  = last_weighing_function cs (weighing_function_ this) /\
  isWeighingFunctionSet (final (perform_all cs this))
  = match last_weighing_function cs (weighing_function_ this) with
    | Some _ => true
    | None => false
    end.
Proof.
  assert (Hw : weighing_function_ (final (perform_all cs this))
               = last_weighing_function cs (weighing_function_ this)).
  { revert this. induction cs as [| c cs IH]; intros this; [reflexivity |].
    destruct (perform_all_cons c cs this) as (_ & -> & _).
    rewrite IH.
    destruct c as [? ? | ? ? | wf | []]; reflexivity. }
  split; [exact Hw |].
  unfold isWeighingFunctionSet. now rewrite Hw.
Qed.

(** X3: any sequence of edits, setter calls and hook calls on the default
    backend returns normally; its log holds one line per hook call of the
    sequence and nothing for the edits and the setter, every line of
    severity ERROR; and no insertion hook is called from within. *)
Theorem call_sequences_return_and_log_per_hook
  (cs : list Call) (this : WorldBase) :
  result (perform_all cs this) = Ok tt /\
  length (lines_logged (events (perform_all cs this)))
  = length (filter is_hook_call cs) /\
  Forall (fun l => severity l = ERROR)
    (lines_logged (events (perform_all cs this))) /\
  calls_made (events (perform_all cs this)) = [].
Proof.
  revert this. induction cs as [| c cs IH]; intros this.
  - repeat split. constructor.
  - destruct (perform_all_cons c cs this) as (-> & _ & ->).
    destruct (IH (final (perform c this))) as (Hr & Hl & Hs & Hc).
    unfold lines_logged, calls_made in *.
    rewrite !flat_map_app, length_app, Hl, Hc.
    split; [exact Hr |].
    split; [| split].
    + destruct c as [? ? | ? ? | ? | []]; reflexivity.
    + apply Forall_app. split; [| exact Hs].
      destruct c as [? ? | ? ? | ? | []]; cbn; repeat constructor.
    + destruct c as [? ? | ? ? | ? | []]; reflexivity.
Qed.

(** X4: the line a default hook logs names point clouds only for
    [insertPointcloudIntoMapImpl]; the hook for point clouds with weights
    logs the line of the disparity hooks, so the log does not tell a
    weighted point-cloud insertion from a disparity insertion. *)
Theorem only_unweighted_pointcloud_hook_is_named
  (c : HookCall) (this : WorldBase) :
  (lines_logged (events (hook_body c this))
   = [mkLogLine ERROR "Calling unimplemented pointcloud insertion!"]
   <-> hook_of c = PointcloudImpl) /\
  (lines_logged (events (hook_body c this))
   = [mkLogLine ERROR "Calling unimplemented disparity insertion!"]
   <-> hook_of c <> PointcloudImpl).
Proof.
  destruct c; cbn; split; split; intros E;
    try reflexivity; try discriminate; try congruence.
Qed.
